(** * Dependency probe for PDF export

    Shallow embedding of [ReportEngine/utils/dependency_check.py]: the
    platform-specific instruction text, the Pango probe
    [check_pango_available], the logging wrapper [log_dependency_status]
    and the command-line entry point.

    Python [str] values are kept as [string], holding the UTF-8 encoding
    of the text.  The only substring tests of the module look for ASCII
    fragments, and an ASCII byte never occurs inside a multi-byte UTF-8
    sequence, so a test on the encoding answers as the test on code points
    does. *)

From Stdlib Require Import Bool Ascii String List PeanoNat ZArith.
Import ListNotations.
Local Open Scope string_scope.

(** ** Text *)

Module PyStr.

(** The one-character string ["\n"]. *)
Definition LF : string := String (ascii_of_nat 10) EmptyString.

(** [needle in hay]: does [needle] occur in [hay] as a contiguous
    substring? *)
Fixpoint contains (needle hay : string) : bool :=
  match hay with
  | EmptyString => prefix needle EmptyString
  | String _ rest => prefix needle hay || contains needle rest
  end.

(** The specification [contains] decides. *)
Definition Substring (needle hay : string) : Prop :=
  exists before after, hay = before ++ needle ++ after.

(** Number of line feeds of a text: a text of [n + 1] lines has [n]. *)
Fixpoint line_breaks (s : string) : nat :=
  match s with
  | EmptyString => 0
  | String c rest =>
      (if Ascii.eqb c (ascii_of_nat 10) then 1 else 0) + line_breaks rest
  end.

(** A text is a single line when it holds no line feed. *)
Definition one_line (s : string) : bool := Nat.eqb (line_breaks s) 0.

(** [str.lower] restricted to ASCII letters: every byte from [A] to [Z]
    is moved to its lower-case letter and every other byte is kept.  On
    ASCII text this is what [str.lower] computes. *)
Definition ascii_lower_char (c : ascii) : ascii :=
  let n := nat_of_ascii c in
  if ((65 <=? n) && (n <=? 90))%nat then ascii_of_nat (n + 32) else c.

Fixpoint ascii_lower (s : string) : string :=
  match s with
  | EmptyString => EmptyString
  | String c rest => String (ascii_lower_char c) (ascii_lower rest)
  end.

End PyStr.
Import PyStr.

(** ** The literals of the module *)

(** The block returned on macOS (source lines 21-31). *)
Definition MACOS_INSTRUCTIONS : string :=
  "║  🍎 macOS 系统解决方案：                                       ║" ++ LF ++
  "║                                                                ║" ++ LF ++
  "║  1. 安装系统依赖：                                             ║" ++ LF ++
  "║     brew install pango gdk-pixbuf libffi                       ║" ++ LF ++
  "║                                                                ║" ++ LF ++
  "║  2. 设置环境变量（重要！）：                                   ║" ++ LF ++
  "║     export DYLD_LIBRARY_PATH=/opt/homebrew/lib:$DYLD_LIBRARY_PATH ║" ++ LF ++
  "║                                                                ║" ++ LF ++
  "║  3. 永久生效（推荐）：                                         ║" ++ LF ++
  "║     echo 'export DYLD_LIBRARY_PATH=/opt/homebrew/lib:$DYLD_LIBRARY_PATH' >> ~/.zshrc ║" ++ LF ++
  "║     source ~/.zshrc                                            ║" ++ LF.

(** The block returned on Linux (source lines 35-42). *)
Definition LINUX_INSTRUCTIONS : string :=
  "║  🐧 Linux 系统解决方案：                                       ║" ++ LF ++
  "║                                                                ║" ++ LF ++
  "║  Ubuntu/Debian:                                                ║" ++ LF ++
  "║    sudo apt-get install libpango-1.0-0 libpangoft2-1.0-0 \    ║" ++ LF ++
  "║                         libgdk-pixbuf2.0-0 libffi-dev libcairo2 ║" ++ LF ++
  "║                                                                ║" ++ LF ++
  "║  CentOS/RHEL:                                                  ║" ++ LF ++
  "║    sudo yum install pango gdk-pixbuf2 libffi-devel cairo       ║" ++ LF.

(** The block returned on Windows (source lines 46-49). *)
Definition WINDOWS_INSTRUCTIONS : string :=
  "║  🪟 Windows 系统解决方案：                                     ║" ++ LF ++
  "║                                                                ║" ++ LF ++
  "║  下载并安装 GTK3 Runtime：                                     ║" ++ LF ++
  "║  https://github.com/tschoonj/GTK-for-Windows-Runtime-Environment-Installer/releases ║" ++ LF.

(** The block returned for any other system (source line 53). *)
Definition OTHER_INSTRUCTIONS : string :=
  "║  请查看 README.md 了解您系统的安装方法                        ║" ++ LF.

(** ** [_get_platform_specific_instructions]

    The source reads [platform.system()]; here the identifier it returns
    is the argument [system]. *)
Definition _get_platform_specific_instructions (system : string) : string :=
  if String.eqb system "Darwin" then MACOS_INSTRUCTIONS
  else if String.eqb system "Linux" then LINUX_INSTRUCTIONS
  else if String.eqb system "Windows" then WINDOWS_INSTRUCTIONS
  else OTHER_INSTRUCTIONS.


(** Message of the success return (source line 72). *)
Definition SUCCESS_MESSAGE : string :=
  "✓ Pango 依赖检测通过，PDF 导出功能可用".

(** Upper border of the remediation box (source line 80). *)
Definition BOX_TOP : string :=
  "╔════════════════════════════════════════════════════════════════╗" ++ LF.

(** Header line of the box (source line 81). *)
Definition BOX_HEADER : string :=
  "║  ⚠️  PDF 导出依赖缺失                                          ║" ++ LF.

(** Empty box line (source lines 82, 84 and 86). *)
Definition BOX_BLANK : string :=
  "║                                                                ║" ++ LF.

(** Line saying that PDF export is unavailable and other features are unaffected (source line 83). *)
Definition BOX_NOTE : string :=
  "║  📄 PDF 导出功能将不可用（其他功能不受影响）                  ║" ++ LF.

(** Line pointing to the README (source line 87). *)
Definition BOX_DOC : string :=
  "║  📖 完整文档：根目录 README.md 第393行「PDF 导出依赖」        ║" ++ LF.

(** Lower border of the box (source line 88); no trailing line feed. *)
Definition BOX_BOTTOM : string :=
  "╚════════════════════════════════════════════════════════════════╝".

(** Fixed part of the f-string of source line 90. *)
Definition LOAD_FAILED_PREFIX : string :=
  "⚠ PDF 依赖加载失败: ".

(** Message of the ImportError handler (source lines 94-95). *)
Definition WEASYPRINT_MISSING : string :=
  "⚠ WeasyPrint 未安装" ++ LF ++
  "解决方法: pip install weasyprint".

(** Fixed part of the f-string of source line 99. *)
Definition CHECK_FAILED_PREFIX : string :=
  "⚠ PDF 依赖检测失败: ".

(** First informational record (source line 112). *)
Definition INFO_HINT : string :=
  "💡 提示：PDF 导出功能需要 Pango 库支持，但不影响系统其他功能的正常使用".

(** Second informational record (source line 113). *)
Definition INFO_README : string :=
  "📚 安装说明请参考：根目录下的 README.md 文件".

(** ** Exceptions

    The part of Python's exception hierarchy the handlers of the probe
    can tell apart, with user-defined classes as [Derived].  Every class
    has one base, as the built-in classes named here do.  A class with
    several bases answers the three [except] tests as the chain through
    one of its bases does: [OSError] and [ImportError] have conflicting
    instance layouts, so no class derives from both. *)

Module PyExc.

Inductive exc_class : Type :=
| BaseException
| Exception
| OSError
| FileNotFoundError
| PermissionError
| ImportError
| ModuleNotFoundError
| AttributeError
| RuntimeError
| KeyboardInterrupt
| SystemExit
| GeneratorExit
| Derived (name : string) (base : exc_class).

Fixpoint class_eqb (c d : exc_class) : bool :=
  match c, d with
  | BaseException, BaseException
  | Exception, Exception
  | OSError, OSError
  | FileNotFoundError, FileNotFoundError
  | PermissionError, PermissionError
  | ImportError, ImportError
  | ModuleNotFoundError, ModuleNotFoundError
  | AttributeError, AttributeError
  | RuntimeError, RuntimeError
  | KeyboardInterrupt, KeyboardInterrupt
  | SystemExit, SystemExit
  | GeneratorExit, GeneratorExit => true
  | Derived n b, Derived m b' => String.eqb n m && class_eqb b b'
  | _, _ => false
  end.

(** The class followed by its ancestors, nearest first. *)
Fixpoint mro (c : exc_class) : list exc_class :=
  match c with
  | BaseException => [BaseException]
  | Exception => [Exception; BaseException]
  | OSError => [OSError; Exception; BaseException]
  | FileNotFoundError => [FileNotFoundError; OSError; Exception; BaseException]
  | PermissionError => [PermissionError; OSError; Exception; BaseException]
  | ImportError => [ImportError; Exception; BaseException]
  | ModuleNotFoundError => [ModuleNotFoundError; ImportError; Exception; BaseException]
  | AttributeError => [AttributeError; Exception; BaseException]
  | RuntimeError => [RuntimeError; Exception; BaseException]
  | KeyboardInterrupt => [KeyboardInterrupt; BaseException]
  | SystemExit => [SystemExit; BaseException]
  | GeneratorExit => [GeneratorExit; BaseException]
  | Derived _ base => c :: mro base
  end.

Definition issubclass (c d : exc_class) : bool :=
  existsb (class_eqb d) (mro c).

(** A raised exception: its class and the text [str(e)] gives, which is
    also what [{e}] formats to in an f-string. *)
Record exn : Type := mk_exn { exc_type : exc_class; str : string }.

(** What [except d] tests. *)
Definition isinstance (e : exn) (d : exc_class) : bool :=
  issubclass (exc_type e) d.

(** A statement or call either completes with a value or raises. *)
Inductive result (A : Type) : Type :=
| Return (a : A)
| Raise (e : exn).
Arguments Return {A} a.
Arguments Raise {A} e.

Definition bind {A B : Type} (c : result A) (k : A -> result B) : result B :=
  match c with
  | Return a => k a
  | Raise e => Raise e
  end.

(** An exception that [except Exception] stops: a normal return, or an
    instance of [Exception]. *)
Definition stopped_by_except_Exception {A : Type} (r : result A) : bool :=
  match r with
  | Return _ => true
  | Raise e => isinstance e Exception
  end.

End PyExc.
Import PyExc.

Notation "x <- c ;; k" := (bind c (fun x => k))
  (at level 61, c at next level, right associativity).
Notation "c ;; k" := (bind c (fun _ => k))
  (at level 61, right associativity).

(** ** The host

    What the module reads from its surroundings: the operating system
    identifier, the interpreter's [str.lower], and what each of the three
    statements of the [try] body does when it is reached. *)
Record host : Type := mk_host {
  system : string;                      (* platform.system() *)
  lower : string -> string;             (* str.lower *)
  import_weasyprint : result unit;      (* from weasyprint import HTML *)
  import_text_ffi : result unit;        (* from weasyprint.text.ffi import ffi, pango *)
  pango_version : result Z              (* pango.pango_version() *)
}.

(** ** [check_pango_available] *)

(** The body of the [try] block (source lines 66-72). *)
Definition load_attempt (h : host) : result (bool * string) :=
  import_weasyprint h ;;
  import_text_ffi h ;;
  pango_version h ;;
  Return (true, SUCCESS_MESSAGE).

(** The condition of source line 78. *)
Definition names_native_library (h : host) (error_msg : string) : bool :=
  contains "gobject" (lower h error_msg)
  || contains "pango" (lower h error_msg)
  || contains "gdk" (lower h error_msg).

(** The message of source lines 79-89. *)
Definition remediation_box (platform_instructions : string) : string :=
  BOX_TOP ++
  BOX_HEADER ++
  BOX_BLANK ++
  BOX_NOTE ++
  BOX_BLANK ++
  platform_instructions ++
  BOX_BLANK ++
  BOX_DOC ++
  BOX_BOTTOM.

(** The handlers are tried in the order of the source: [OSError],
    [ImportError], [Exception]; an exception none of them matches leaves
    the function. *)
Definition check_pango_available (h : host) : result (bool * string) :=
  match load_attempt h with
  | Return r => Return r
  | Raise e =>
      if isinstance e OSError then
        let error_msg := str e in
        let platform_instructions := _get_platform_specific_instructions (system h) in
        if names_native_library h error_msg then
          Return (false, remediation_box platform_instructions)
        else
          Return (false, LOAD_FAILED_PREFIX ++ error_msg)
      else if isinstance e ImportError then
        Return (false, WEASYPRINT_MISSING)
      else if isinstance e Exception then
        Return (false, CHECK_FAILED_PREFIX ++ str e)
      else
        Raise e
  end.

(** ** Logging *)

Module Loguru.

Inductive level : Type :=
| TRACE | DEBUG | INFO | SUCCESS | WARNING | ERROR | CRITICAL.

(** The records the logger has received, oldest first. *)
Definition sink : Type := list (level * string).

Definition emit (l : level) (message : string) (log : sink) : sink :=
  (log ++ [(l, message)])%list.

Definition success := emit SUCCESS.
Definition warning := emit WARNING.
Definition info := emit INFO.

End Loguru.

(** ** [log_dependency_status] *)
Definition log_dependency_status (h : host) (log : Loguru.sink)
  : result bool * Loguru.sink :=
  match check_pango_available h with
  | Raise e => (Raise e, log)
  | Return (is_available, message) =>
      let log :=
        if is_available then
          Loguru.success message log
        else
          let log := Loguru.warning message log in
          let log := Loguru.info INFO_HINT log in
          Loguru.info INFO_README log in
      (Return is_available, log)
  end.

(** ** The entry point (source lines 118-122) *)

(** Standard output as the run of the module meets it.  The imported
    libraries may write to it themselves while the load attempt runs, and
    a write may raise: [UnicodeEncodeError] when the encoding of the
    stream cannot represent the text, [BrokenPipeError], and so on. *)
Record console : Type := mk_console {
  attempt_writes : string;           (* written by the imports of lines 66-70 *)
  write : string -> result unit      (* sys.stdout.write(text) *)
}.

(** How the run ends.  Line 122 always raises: [sys.exit(status)] is
    [raise SystemExit(status)].  [SysExit status] is that exception
    reaching the top level; [Uncaught e] is an exception raised before
    line 122 reaching it, out of the probe or out of [print]. *)
Inductive ending : Type :=
| SysExit (status : Z)
| Uncaught (e : exn).


(** [print(message)] writes the message, then the line feed; a write
    that raises adds nothing to standard output and ends the call.  The
    result is the outcome with the text on standard output after it. *)
Definition print (c : console) (message : string) (stdout : string)
  : result unit * string :=
  match write c message with
  | Raise e => (Raise e, stdout)
  | Return _ =>
      let stdout := stdout ++ message in
      match write c LF with
      | Raise e => (Raise e, stdout)
      | Return _ => (Return tt, stdout ++ LF)
      end
  end.

Definition main (h : host) (c : console) (stdout : string) : string * ending :=
  let stdout := stdout ++ attempt_writes c in
  match check_pango_available h with
  | Raise e => (stdout, Uncaught e)
  | Return (is_available, message) =>
      match print c message stdout with
      | (Raise e, stdout) => (stdout, Uncaught e)
      | (Return _, stdout) =>
          (stdout, SysExit (if is_available then 0 else 1)%Z)
      end
  end.

(** ** Sample hosts

    Concrete situations the probe meets, used to run the definitions. *)
Module Samples.

Definition with_steps (s : string) (a b : result unit) (c : result Z) : host :=
  mk_host s ascii_lower a b c.

(** WeasyPrint and Pango both load; Pango reports version 1.50.14. *)
Definition healthy : host :=
  with_steps "Linux" (Return tt) (Return tt) (Return 15014%Z).

(** The native binding cannot load GObject. *)
Definition gobject_missing : exn :=
  mk_exn OSError "cannot load library 'libGObject-2.0-0': error 0x7e".
Definition no_gobject : host :=
  with_steps "Windows" (Raise gobject_missing) (Return tt) (Return 15014%Z).

(** The loader is refused a library whose name is none of the three. *)
Definition cairo_denied : exn :=
  mk_exn PermissionError "[Errno 13] Permission denied: '/usr/lib/libcairo.so.2'".
Definition no_cairo : host :=
  with_steps "Linux" (Return tt) (Raise cairo_denied) (Return 15014%Z).

(** The loader reports a failure on two lines. *)
Definition cairo_two_lines : exn :=
  mk_exn OSError
    ("cannot load library 'libcairo.so.2'" ++ LF ++
     "libcairo.so.2: cannot open shared object file").
Definition no_cairo_verbose : host :=
  with_steps "Linux" (Raise cairo_two_lines) (Return tt) (Return 15014%Z).

(** The package is not installed. *)
Definition weasyprint_absent : exn :=
  mk_exn ModuleNotFoundError "No module named 'weasyprint'".
Definition no_weasyprint : host :=
  with_steps "Darwin" (Raise weasyprint_absent) (Return tt) (Return 15014%Z).

(** The binding has no [pango_version] symbol. *)
Definition symbol_absent : exn :=
  mk_exn AttributeError "function/symbol 'pango_version' not found in library".
Definition no_symbol : host :=
  with_steps "Linux" (Return tt) (Return tt) (Raise symbol_absent).

(** The user interrupts the import. *)
Definition interrupt : exn := mk_exn KeyboardInterrupt "".
Definition interrupted : host :=
  with_steps "Linux" (Raise interrupt) (Return tt) (Return 15014%Z).

(** A module run by the import calls [sys.exit(1)]. *)
Definition exit_request : exn := mk_exn SystemExit "1".
Definition exiting : host :=
  with_steps "Linux" (Return tt) (Raise exit_request) (Return 15014%Z).

End Samples.

(** ** Lines of a message *)

Module PyLines.

(** [s.split("\n")]: the pieces between line feeds, so a text has one
    piece more than it has line feeds. *)
Fixpoint split_lines (s : string) : list string :=
  match s with
  | EmptyString => [EmptyString]
  | String c rest =>
      if Ascii.eqb c (ascii_of_nat 10) then EmptyString :: split_lines rest
      else match split_lines rest with
           | line :: others => String c line :: others
           | [] => [String c EmptyString]
           end
  end.

(** [s.endswith(suffix)]. *)
Fixpoint endswith (s suffix : string) : bool :=
  String.eqb s suffix
  || match s with
     | EmptyString => false
     | String _ rest => endswith rest suffix
     end.

(** A line of the remediation box: the upper border, the lower border,
    or text between two vertical bars, each with one blank inside. *)
Definition box_line (line : string) : bool :=
  String.eqb (line ++ LF) BOX_TOP
  || String.eqb line BOX_BOTTOM
  || (prefix "║ " line && endswith line " ║").

End PyLines.
Import PyLines.

(** The same host on another operating system. *)
Definition on_platform (platform : string) (h : host) : host :=
  mk_host platform (lower h)
          (import_weasyprint h) (import_text_ffi h) (pango_version h).

(** Further situations. *)
Module MoreSamples.

(** Pango is found but its library file is not: the text names it in
    capitals. *)
Definition pango_missing : exn :=
  mk_exn FileNotFoundError "cannot load library 'libPANGO-1.0.dylib'".
Definition no_pango : host :=
  Samples.with_steps "Darwin" (Return tt) (Raise pango_missing) (Return 15014%Z).

(** A host of an unnamed system on which GDK is missing. *)
Definition gdk_missing : exn :=
  mk_exn OSError "libgdk_pixbuf-2.0.so.0: cannot open shared object file".
Definition no_gdk_freebsd : host :=
  Samples.with_steps "FreeBSD" (Return tt) (Return tt) (Raise gdk_missing).

End MoreSamples.

(** Standard outputs. *)
Module Consoles.

(** A stream that takes every text, on which nothing else is written. *)
Definition utf8 : console := mk_console "" (fun _ => Return tt).


Fixpoint is_ascii (text : string) : bool :=
  match text with
  | EmptyString => true
  | String c rest => (nat_of_ascii c <? 128)%nat && is_ascii rest
  end.

Definition UnicodeEncodeError : exc_class :=
  Derived "UnicodeEncodeError"
    (Derived "UnicodeError" (Derived "ValueError" Exception)).

(** What an ASCII stream raises on the success message, whose first
    character is the check mark. *)
Definition cannot_encode : exn :=
  mk_exn UnicodeEncodeError
    "'ascii' codec can't encode character '\u2713' in position 0: ordinal not in range(128)".

(** A stream whose encoding is ASCII. *)
Definition ascii : console :=
  mk_console "" (fun text => if is_ascii text then Return tt
                             else Raise cannot_encode).

End Consoles.

(** * Properties *)

(** ** Text *)

Module PyStrFacts.

Lemma append_nil_r (s : string) : s ++ "" = s.
Proof.
  induction s as [|x s IH]; simpl; [reflexivity|].
  now rewrite IH.
Qed.

Lemma append_assoc (a b c : string) : (a ++ b) ++ c = a ++ b ++ c.
Proof.
  induction a as [|x a IH]; simpl; [reflexivity|].
  now rewrite IH.
Qed.

Lemma prefix_nil (s : string) : prefix "" s = true.
Proof. now destruct s. Qed.

Lemma prefix_spec (p s : string) :
  prefix p s = true <-> exists t, s = p ++ t.
Proof.
  revert s; induction p as [|a p IH]; intros s.
  - rewrite prefix_nil. split; [intros _; now exists s | reflexivity].
  - destruct s as [|b s]; simpl.
    + split; [discriminate | intros [t Ht]; discriminate].
    + destruct (ascii_dec a b) as [->|Hab].
      * rewrite IH. split; intros [t Ht]; exists t.
        -- now rewrite Ht.
        -- now injection Ht.
      * split; [discriminate|].
        intros [t Ht]. injection Ht as Hb _. now elim Hab.
Qed.

Lemma contains_spec (needle hay : string) :
  contains needle hay = true <-> Substring needle hay.
Proof.
  unfold Substring.
  induction hay as [|c hay IH]; cbn [contains].
  - rewrite prefix_spec. split.
    + intros [t Ht]. now exists "", t.
    + intros [[|x a] [b Hab]]; [now exists b | discriminate].
  - rewrite orb_true_iff, IH, prefix_spec. split.
    + intros [[t Ht] | [a [b Hab]]].
      * now exists "", t.
      * exists (String c a), b. simpl. now rewrite Hab.
    + intros [[|x a] [b Hab]].
      * left. now exists b.
      * right. exists a, b. simpl in Hab. now injection Hab.
Qed.

Lemma Substring_intro (before needle after : string) :
  Substring needle (before ++ needle ++ after).
Proof. now exists before, after. Qed.

Lemma Substring_app_l (a needle hay : string) :
  Substring needle hay -> Substring needle (a ++ hay).
Proof.
  intros [x [y ->]]. exists (a ++ x), y. now rewrite append_assoc.
Qed.

Lemma Substring_head (needle rest : string) : Substring needle (needle ++ rest).
Proof. now exists "", rest. Qed.

Lemma line_breaks_app (a b : string) :
  line_breaks (a ++ b) = line_breaks a + line_breaks b.
Proof.
  induction a as [|x a IH]; simpl; [reflexivity|].
  rewrite IH. apply Nat.add_assoc.
Qed.

Lemma one_line_app (a b : string) :
  one_line (a ++ b) = one_line a && one_line b.
Proof.
  unfold one_line. rewrite line_breaks_app.
  destruct (line_breaks a); [reflexivity|].
  now destruct (line_breaks b).
Qed.

Lemma prefix_differs (p a b : string) :
  prefix p a = true -> prefix p b = false -> a <> b.
Proof. intros Ha Hb ->. congruence. Qed.

End PyStrFacts.
Import PyStrFacts.

(** ** The class hierarchy *)

Module PyExcFacts.

Lemma OSError_is_Exception (c : exc_class) :
  issubclass c OSError = true -> issubclass c Exception = true.
Proof.
  unfold issubclass.
  induction c; simpl; try discriminate; try reflexivity; assumption.
Qed.

Lemma ImportError_is_Exception (c : exc_class) :
  issubclass c ImportError = true -> issubclass c Exception = true.
Proof.
  unfold issubclass.
  induction c; simpl; try discriminate; try reflexivity; assumption.
Qed.

Lemma OSError_not_ImportError (c : exc_class) :
  issubclass c OSError = true -> issubclass c ImportError = false.
Proof.
  unfold issubclass.
  induction c; simpl; try discriminate; try reflexivity; assumption.
Qed.

End PyExcFacts.
Import PyExcFacts.

(** ** The [try] body and its handlers *)

Lemma load_attempt_success (h : host) (v : Z) :
  import_weasyprint h = Return tt ->
  import_text_ffi h = Return tt ->
  pango_version h = Return v ->
  load_attempt h = Return (true, SUCCESS_MESSAGE).
Proof.
  intros H1 H2 H3. unfold load_attempt. now rewrite H1, H2, H3.
Qed.

Lemma load_attempt_Return (h : host) (r : bool * string) :
  load_attempt h = Return r -> r = (true, SUCCESS_MESSAGE).
Proof.
  unfold load_attempt, bind.
  destruct (import_weasyprint h); [|discriminate].
  destruct (import_text_ffi h); [|discriminate].
  destruct (pango_version h); [|discriminate].
  congruence.
Qed.

Lemma no_exception (h : host) (r : bool * string) :
  load_attempt h = Return r ->
  check_pango_available h = Return (true, SUCCESS_MESSAGE).
Proof.
  intros H. unfold check_pango_available. rewrite H.
  now rewrite (load_attempt_Return h r H).
Qed.

Lemma except_OSError (h : host) (e : exn) :
  load_attempt h = Raise e ->
  isinstance e OSError = true ->
  check_pango_available h =
    if names_native_library h (str e)
    then Return (false, remediation_box (_get_platform_specific_instructions (system h)))
    else Return (false, LOAD_FAILED_PREFIX ++ str e).
Proof.
  intros H HOS. unfold check_pango_available. now rewrite H, HOS.
Qed.

Lemma except_ImportError (h : host) (e : exn) :
  load_attempt h = Raise e ->
  isinstance e ImportError = true ->
  check_pango_available h = Return (false, WEASYPRINT_MISSING).
Proof.
  intros H HIm. unfold check_pango_available. rewrite H.
  destruct (isinstance e OSError) eqn:HOS.
  - apply OSError_not_ImportError in HOS. unfold isinstance in HIm. congruence.
  - now rewrite HIm.
Qed.

Lemma except_Exception (h : host) (e : exn) :
  load_attempt h = Raise e ->
  isinstance e OSError = false ->
  isinstance e ImportError = false ->
  isinstance e Exception = true ->
  check_pango_available h = Return (false, CHECK_FAILED_PREFIX ++ str e).
Proof.
  intros H HOS HIm HEx. unfold check_pango_available.
  now rewrite H, HOS, HIm, HEx.
Qed.

Lemma not_caught (h : host) (e : exn) :
  load_attempt h = Raise e ->
  isinstance e Exception = false ->
  check_pango_available h = Raise e.
Proof.
  intros H HEx. unfold check_pango_available. rewrite H.
  destruct (isinstance e OSError) eqn:HOS.
  { apply OSError_is_Exception in HOS. unfold isinstance in HEx. congruence. }
  destruct (isinstance e ImportError) eqn:HIm.
  { apply ImportError_is_Exception in HIm. unfold isinstance in HEx. congruence. }
  now rewrite HEx.
Qed.

(** ** The failure messages *)

Lemma remediation_box_not_success (block : string) :
  remediation_box block <> "" /\ remediation_box block <> SUCCESS_MESSAGE.
Proof.
  split; apply (prefix_differs "╔"); reflexivity.
Qed.

Lemma load_failed_not_success (error_msg : string) :
  LOAD_FAILED_PREFIX ++ error_msg <> ""
  /\ LOAD_FAILED_PREFIX ++ error_msg <> SUCCESS_MESSAGE.
Proof.
  split; apply (prefix_differs "⚠"); reflexivity.
Qed.

Lemma weasyprint_missing_not_success :
  WEASYPRINT_MISSING <> "" /\ WEASYPRINT_MISSING <> SUCCESS_MESSAGE.
Proof.
  split; apply (prefix_differs "⚠"); reflexivity.
Qed.

Lemma check_failed_not_success (text : string) :
  CHECK_FAILED_PREFIX ++ text <> ""
  /\ CHECK_FAILED_PREFIX ++ text <> SUCCESS_MESSAGE.
Proof.
  split; apply (prefix_differs "⚠"); reflexivity.
Qed.

(** Every run of the probe is of one of three kinds. *)
Lemma check_pango_available_cases (h : host) :
  (exists r, load_attempt h = Return r
     /\ check_pango_available h = Return (true, SUCCESS_MESSAGE))
  \/ (exists e message, load_attempt h = Raise e
        /\ isinstance e Exception = true
        /\ check_pango_available h = Return (false, message)
        /\ message <> "" /\ message <> SUCCESS_MESSAGE)
  \/ (exists e, load_attempt h = Raise e
        /\ isinstance e Exception = false
        /\ check_pango_available h = Raise e).
Proof.
  destruct (load_attempt h) as [r|e] eqn:H.
  - left. exists r. split; [reflexivity|]. now apply (no_exception h r).
  - right.
    destruct (isinstance e Exception) eqn:HEx.
    + left. exists e.
      destruct (isinstance e OSError) eqn:HOS.
      * rewrite (except_OSError h e H HOS).
        destruct (names_native_library h (str e)).
        -- eexists. repeat split; try reflexivity; try assumption;
             apply remediation_box_not_success.
        -- eexists. repeat split; try reflexivity; try assumption;
             apply load_failed_not_success.
      * destruct (isinstance e ImportError) eqn:HIm.
        -- rewrite (except_ImportError h e H HIm).
           eexists. repeat split; try reflexivity; try assumption;
             apply weasyprint_missing_not_success.
        -- rewrite (except_Exception h e H HOS HIm HEx).
           eexists. repeat split; try reflexivity; try assumption;
             apply check_failed_not_success.
    + right. exists e. repeat split; try reflexivity; try assumption.
      now apply not_caught.
Qed.

(** * The probe *)

Ltac find_substring :=
  repeat (apply Substring_head || apply Substring_app_l).

(** C3: [_get_platform_specific_instructions] returns one of four fixed,
    pairwise different blocks, chosen by the system identifier alone:
    the macOS block for "Darwin", the Linux block for "Linux", the Windows
    block for "Windows", and the generic block for every other
    identifier. *)
Theorem platform_instructions_four_blocks :
  (forall system : string,
      (system = "Darwin"
       /\ _get_platform_specific_instructions system = MACOS_INSTRUCTIONS)
      \/ (system = "Linux"
          /\ _get_platform_specific_instructions system = LINUX_INSTRUCTIONS)
      \/ (system = "Windows"
          /\ _get_platform_specific_instructions system = WINDOWS_INSTRUCTIONS)
      \/ (system <> "Darwin" /\ system <> "Linux" /\ system <> "Windows"
          /\ _get_platform_specific_instructions system = OTHER_INSTRUCTIONS))
  /\ NoDup [MACOS_INSTRUCTIONS; LINUX_INSTRUCTIONS;
            WINDOWS_INSTRUCTIONS; OTHER_INSTRUCTIONS].
Proof.
  split.
  - intros s. unfold _get_platform_specific_instructions.
    destruct (String.eqb_spec s "Darwin") as [->|HD]; [now left|].
    destruct (String.eqb_spec s "Linux") as [->|HL]; [right; now left|].
    destruct (String.eqb_spec s "Windows") as [->|HW];
      [right; right; now left|].
    right; right; right. now repeat split.
  - repeat (apply NoDup_cons;
            [intros Hin; simpl in Hin;
             repeat (destruct Hin as [Hin|Hin]; [revert Hin|]);
             try contradiction;
             apply String.eqb_neq; vm_compute; reflexivity|]).
    apply NoDup_nil.
Qed.

(** C4: when both imports and the version query succeed, the probe
    returns [true] with the success message. *)
Theorem check_pango_available_success (h : host) (version : Z) :
  import_weasyprint h = Return tt ->
  import_text_ffi h = Return tt ->
  pango_version h = Return version ->
  check_pango_available h = Return (true, SUCCESS_MESSAGE).
Proof.
  intros H1 H2 H3.
  apply (no_exception h (true, SUCCESS_MESSAGE)).
  now apply (load_attempt_success h version).
Qed.

Lemma check_pango_available_success_witness :
  import_weasyprint Samples.healthy = Return tt
  /\ import_text_ffi Samples.healthy = Return tt
  /\ pango_version Samples.healthy = Return 15014%Z
  /\ check_pango_available Samples.healthy = Return (true, SUCCESS_MESSAGE).
Proof.
  split; [reflexivity|]. split; [reflexivity|]. split; [reflexivity|].
  apply (check_pango_available_success Samples.healthy 15014%Z); reflexivity.
Defined.

(** C1: when the load attempt raises an [OSError] whose lowercased text
    contains "gobject", "pango" or "gdk", the probe returns [false] with a
    boxed message of several lines made of, in this order, the upper
    border, the header, the note that PDF export alone is unavailable, the
    block [_get_platform_specific_instructions] returns, the line pointing
    to README.md, and the lower border. *)
Theorem check_pango_available_native_library_box (h : host) (e : exn) :
  load_attempt h = Raise e ->
  isinstance e OSError = true ->
  contains "gobject" (lower h (str e))
    || contains "pango" (lower h (str e))
    || contains "gdk" (lower h (str e)) = true ->
  exists message,
    check_pango_available h = Return (false, message)
    /\ message =
         BOX_TOP ++ BOX_HEADER ++ BOX_BLANK ++ BOX_NOTE ++ BOX_BLANK
         ++ _get_platform_specific_instructions (system h)
         ++ BOX_BLANK ++ BOX_DOC ++ BOX_BOTTOM
    /\ one_line message = false
    /\ Substring BOX_HEADER message
    /\ Substring BOX_NOTE message
    /\ Substring (_get_platform_specific_instructions (system h)) message
    /\ Substring BOX_DOC message
    /\ Substring "README.md" BOX_DOC.
Proof.
  intros H HOS Hfrag.
  exists (remediation_box (_get_platform_specific_instructions (system h))).
  split.
  { rewrite (except_OSError h e H HOS).
    unfold names_native_library. now rewrite Hfrag. }
  unfold remediation_box.
  split; [reflexivity|].
  split; [now rewrite one_line_app|].
  split; [find_substring|].
  split; [find_substring|].
  split; [find_substring|].
  split; [find_substring|].
  apply contains_spec. reflexivity.
Qed.

Lemma check_pango_available_native_library_box_witness :
  load_attempt Samples.no_gobject = Raise Samples.gobject_missing
  /\ isinstance Samples.gobject_missing OSError = true
  /\ contains "gobject" (lower Samples.no_gobject (str Samples.gobject_missing))
       || contains "pango" (lower Samples.no_gobject (str Samples.gobject_missing))
       || contains "gdk" (lower Samples.no_gobject (str Samples.gobject_missing))
     = true
  /\ exists message,
       check_pango_available Samples.no_gobject = Return (false, message)
       /\ Substring WINDOWS_INSTRUCTIONS message
       /\ Substring BOX_DOC message.
Proof.
  split; [reflexivity|]. split; [reflexivity|]. split; [reflexivity|].
  destruct (check_pango_available_native_library_box
              Samples.no_gobject Samples.gobject_missing)
    as [message [Hret [_ [_ [_ [_ [Hblock [Hdoc _]]]]]]]];
    [reflexivity | reflexivity | reflexivity |].
  exists message. split; [exact Hret|]. split; [exact Hblock | exact Hdoc].
Defined.

(** The [ImportError] message is not a single line. *)
Lemma package_missing_message_has_two_lines :
  load_attempt Samples.no_weasyprint = Raise Samples.weasyprint_absent
  /\ isinstance Samples.weasyprint_absent ImportError = true
  /\ check_pango_available Samples.no_weasyprint
     = Return (false, WEASYPRINT_MISSING)
  /\ one_line WEASYPRINT_MISSING = false.
Proof. repeat split. Qed.

(** C5: when the load attempt raises an [ImportError], the probe returns
    [false] with one fixed message of two lines: the first says that
    WeasyPrint is not installed, the second gives the command
    [pip install weasyprint]. *)
Theorem check_pango_available_package_missing (h : host) (e : exn) :
  load_attempt h = Raise e ->
  isinstance e ImportError = true ->
  check_pango_available h = Return (false, WEASYPRINT_MISSING)
  /\ line_breaks WEASYPRINT_MISSING = 1
  /\ (exists first second,
        WEASYPRINT_MISSING = first ++ LF ++ second
        /\ one_line first = true
        /\ one_line second = true
        /\ Substring "pip install weasyprint" second).
Proof.
  intros H HIm. split; [now apply (except_ImportError h e)|].
  split; [reflexivity|].
  exists "⚠ WeasyPrint 未安装", "解决方法: pip install weasyprint".
  split; [reflexivity|]. split; [reflexivity|]. split; [reflexivity|].
  apply contains_spec. reflexivity.
Qed.

Lemma check_pango_available_package_missing_witness :
  load_attempt Samples.no_weasyprint = Raise Samples.weasyprint_absent
  /\ isinstance Samples.weasyprint_absent ImportError = true
  /\ check_pango_available Samples.no_weasyprint
     = Return (false, WEASYPRINT_MISSING).
Proof.
  split; [reflexivity|]. split; [reflexivity|].
  apply (check_pango_available_package_missing
           Samples.no_weasyprint Samples.weasyprint_absent); reflexivity.
Defined.

(** An [OSError] naming none of the three libraries whose text has two
    lines gives a message of two lines. *)
Lemma other_load_error_message_spans_lines :
  load_attempt Samples.no_cairo_verbose = Raise Samples.cairo_two_lines
  /\ isinstance Samples.cairo_two_lines OSError = true
  /\ contains "gobject" (ascii_lower (str Samples.cairo_two_lines)) = false
  /\ contains "pango" (ascii_lower (str Samples.cairo_two_lines)) = false
  /\ contains "gdk" (ascii_lower (str Samples.cairo_two_lines)) = false
  /\ check_pango_available Samples.no_cairo_verbose
     = Return (false, LOAD_FAILED_PREFIX ++ str Samples.cairo_two_lines)
  /\ one_line (LOAD_FAILED_PREFIX ++ str Samples.cairo_two_lines) = false.
Proof. repeat split. Qed.

(** C6: when the load attempt raises an [OSError] whose lowercased text
    contains none of "gobject", "pango" and "gdk", the probe returns
    [false] with the fixed single-line prefix followed by the raw error
    text; the message has the line breaks of the error text and no
    other, so it is one line exactly when the error text is. *)
Theorem check_pango_available_other_load_error (h : host) (e : exn) :
  load_attempt h = Raise e ->
  isinstance e OSError = true ->
  contains "gobject" (lower h (str e)) = false ->
  contains "pango" (lower h (str e)) = false ->
  contains "gdk" (lower h (str e)) = false ->
  check_pango_available h = Return (false, LOAD_FAILED_PREFIX ++ str e)
  /\ one_line LOAD_FAILED_PREFIX = true
  /\ Substring (str e) (LOAD_FAILED_PREFIX ++ str e)
  /\ line_breaks (LOAD_FAILED_PREFIX ++ str e) = line_breaks (str e)
  /\ one_line (LOAD_FAILED_PREFIX ++ str e) = one_line (str e).
Proof.
  intros H HOS Hg Hp Hk.
  split.
  { rewrite (except_OSError h e H HOS).
    unfold names_native_library. now rewrite Hg, Hp, Hk. }
  split; [reflexivity|].
  split; [exists LOAD_FAILED_PREFIX, ""; now rewrite append_nil_r|].
  split; [now rewrite line_breaks_app|].
  now rewrite one_line_app.
Qed.

Lemma check_pango_available_other_load_error_witness :
  load_attempt Samples.no_cairo = Raise Samples.cairo_denied
  /\ isinstance Samples.cairo_denied OSError = true
  /\ contains "gobject" (ascii_lower (str Samples.cairo_denied)) = false
  /\ contains "pango" (ascii_lower (str Samples.cairo_denied)) = false
  /\ contains "gdk" (ascii_lower (str Samples.cairo_denied)) = false
  /\ check_pango_available Samples.no_cairo
     = Return (false, LOAD_FAILED_PREFIX ++ str Samples.cairo_denied)
  /\ one_line (LOAD_FAILED_PREFIX ++ str Samples.cairo_denied) = true.
Proof.
  split; [reflexivity|]. split; [reflexivity|]. split; [reflexivity|].
  split; [reflexivity|]. split; [reflexivity|].
  destruct (check_pango_available_other_load_error
              Samples.no_cairo Samples.cairo_denied)
    as [Hret [_ [_ [_ Hline]]]]; try reflexivity.
  split; [exact Hret|]. rewrite Hline. reflexivity.
Defined.

(** A [KeyboardInterrupt] raised by the import leaves the probe. *)
Lemma check_pango_available_propagates_KeyboardInterrupt :
  load_attempt Samples.interrupted = Raise Samples.interrupt
  /\ check_pango_available Samples.interrupted = Raise Samples.interrupt
  /\ ~ (exists b message,
          check_pango_available Samples.interrupted = Return (b, message)).
Proof.
  split; [reflexivity|]. split; [reflexivity|].
  intros [b [message H]]. discriminate H.
Qed.

(** C2: the probe returns a pair, rather than raising, exactly when the
    load attempt succeeds or raises an instance of [Exception] ([OSError],
    [ImportError] or any other subclass); an exception outside
    [Exception] is not caught. *)
Theorem check_pango_available_returns_iff_handled (h : host) :
  (exists b message, check_pango_available h = Return (b, message))
  <-> stopped_by_except_Exception (load_attempt h) = true.
Proof.
  destruct (check_pango_available_cases h)
    as [[r [H Hret]] | [[e [m [H [HEx [Hret _]]]]] | [e [H [HEx Hret]]]]];
    rewrite H; simpl.
  - split; [reflexivity | intros _; now exists true, SUCCESS_MESSAGE].
  - split; [now intros _ | intros _; now exists false, m].
  - rewrite HEx, Hret. split; [|discriminate].
    intros [b [m Hm]]. discriminate Hm.
Qed.

Lemma check_pango_available_returns_iff_handled_witness :
  stopped_by_except_Exception (load_attempt Samples.no_symbol) = true
  /\ exists b message,
       check_pango_available Samples.no_symbol = Return (b, message).
Proof.
  split; [reflexivity|].
  apply (check_pango_available_returns_iff_handled Samples.no_symbol).
  reflexivity.
Defined.

(** A [SystemExit] raised by the import leaves the probe: no pair is
    returned. *)
Lemma check_pango_available_propagates_SystemExit :
  load_attempt Samples.exiting = Raise Samples.exit_request
  /\ check_pango_available Samples.exiting = Raise Samples.exit_request
  /\ ~ (exists b message,
          check_pango_available Samples.exiting = Return (b, message)).
Proof.
  split; [reflexivity|]. split; [reflexivity|].
  intros [b [message H]]. discriminate H.
Qed.

(** C10: whenever the load attempt succeeds or raises an instance of
    [Exception], the probe returns a pair whose flag is [true] exactly
    when the message is the success message, and exactly when the attempt
    succeeded; on every such failure the flag is [false] and the message
    is non-empty and differs from the success message.  So the flag is
    the result of comparing the message with the success message. *)
Theorem availability_recoverable_from_message (h : host) :
  stopped_by_except_Exception (load_attempt h) = true ->
  exists b message,
    check_pango_available h = Return (b, message)
    /\ (b = true <-> message = SUCCESS_MESSAGE)
    /\ (b = true <-> exists r, load_attempt h = Return r)
    /\ (b = false -> message <> "" /\ message <> SUCCESS_MESSAGE)
    /\ b = String.eqb message SUCCESS_MESSAGE.
Proof.
  intros Hstop.
  destruct (check_pango_available_cases h)
    as [[r [H Hret]] | [[e [m [H [HEx [Hret [Hne Hns]]]]]] | [e [H [HEx _]]]]].
  - exists true, SUCCESS_MESSAGE.
    split; [exact Hret|]. split; [tauto|].
    split; [split; [intros _; now exists r | reflexivity]|].
    split; [discriminate|]. symmetry. apply String.eqb_refl.
  - exists false, m.
    split; [exact Hret|]. split; [split; [discriminate | contradiction]|].
    split; [split; [discriminate | intros [r Hr]; congruence]|].
    split; [tauto|]. symmetry. now apply String.eqb_neq.
  - rewrite H in Hstop. simpl in Hstop. congruence.
Qed.

Lemma availability_recoverable_from_message_witness :
  stopped_by_except_Exception (load_attempt Samples.no_symbol) = true
  /\ exists b message,
       check_pango_available Samples.no_symbol = Return (b, message)
       /\ b = String.eqb message SUCCESS_MESSAGE.
Proof.
  split; [reflexivity|].
  destruct (availability_recoverable_from_message Samples.no_symbol)
    as [b [message [Hret [_ [_ [_ Heq]]]]]]; [reflexivity|].
  exists b, message. split; [exact Hret | exact Heq].
Defined.

(** * The callers *)

(** C7: [log_dependency_status] returns the flag the probe returned. *)
Theorem log_dependency_status_returns_availability
    (h : host) (log : Loguru.sink) (is_available : bool) (message : string) :
  check_pango_available h = Return (is_available, message) ->
  fst (log_dependency_status h log) = Return is_available.
Proof.
  intros H. unfold log_dependency_status. now rewrite H.
Qed.

Lemma log_dependency_status_returns_availability_witness :
  check_pango_available Samples.no_weasyprint
    = Return (false, WEASYPRINT_MISSING)
  /\ fst (log_dependency_status Samples.no_weasyprint []) = Return false.
Proof.
  split; [reflexivity|].
  apply (log_dependency_status_returns_availability
           Samples.no_weasyprint [] false WEASYPRINT_MISSING).
  reflexivity.
Defined.

(** C8: [log_dependency_status] adds to the log one record with the
    probe's message, of level SUCCESS when the probe reports available
    and of level WARNING otherwise, followed in the second case only by
    the two fixed INFO records; it adds nothing else. *)
Theorem log_dependency_status_records
    (h : host) (log : Loguru.sink) (is_available : bool) (message : string) :
  check_pango_available h = Return (is_available, message) ->
  snd (log_dependency_status h log) =
    (log ++ if is_available
            then [(Loguru.SUCCESS, message)]
            else [(Loguru.WARNING, message);
                  (Loguru.INFO, INFO_HINT);
                  (Loguru.INFO, INFO_README)])%list.
Proof.
  intros H. unfold log_dependency_status. rewrite H.
  destruct is_available; simpl; [reflexivity|].
  unfold Loguru.info, Loguru.warning, Loguru.emit.
  now rewrite <- !app_assoc.
Qed.

Lemma log_dependency_status_records_witness :
  check_pango_available Samples.healthy = Return (true, SUCCESS_MESSAGE)
  /\ snd (log_dependency_status Samples.healthy [(Loguru.INFO, "start")])
     = [(Loguru.INFO, "start"); (Loguru.SUCCESS, SUCCESS_MESSAGE)].
Proof.
  split; [reflexivity|].
  apply (log_dependency_status_records
           Samples.healthy [(Loguru.INFO, "start")] true SUCCESS_MESSAGE).
  reflexivity.
Defined.





(** * Further properties *)

(** ** Lines *)

Module PyLinesFacts.

Lemma endswith_spec (s suffix : string) :
  endswith s suffix = true <-> exists before, s = before ++ suffix.
Proof.
  induction s as [|c s IH]; cbn [endswith]; rewrite orb_true_iff, String.eqb_eq.
  - split.
    + intros [<- | H]; [now exists "" | discriminate].
    + intros [[|x b] Hb]; [now left | discriminate].
  - rewrite IH. split.
    + intros [<- | [b ->]]; [now exists "" | now exists (String c b)].
    + intros [[|x b] Hb]; [now left|].
      right. exists b. simpl in Hb. now injection Hb.
Qed.

Lemma split_lines_length (s : string) :
  List.length (split_lines s) = S (line_breaks s).
Proof.
  induction s as [|c s IH]; [reflexivity|].
  cbn [split_lines line_breaks].
  destruct (Ascii.eqb c (ascii_of_nat 10)).
  - simpl. now rewrite IH.
  - destruct (split_lines s); simpl in *; [discriminate | exact IH].
Qed.

Lemma split_lines_join (s : string) : String.concat LF (split_lines s) = s.
Proof.
  induction s as [|c s IH]; [reflexivity|].
  cbn [split_lines].
  destruct (Ascii.eqb_spec c (ascii_of_nat 10)) as [->|Hc].
  - pose proof (split_lines_length s) as Hlen.
    destruct (split_lines s) as [|l ls]; [discriminate|].
    change (String.concat LF ("" :: l :: ls))
      with (LF ++ String.concat LF (l :: ls)).
    now rewrite IH.
  - pose proof (split_lines_length s) as Hlen.
    destruct (split_lines s) as [|l ls]; [discriminate|].
    destruct ls as [|l' ls]; simpl in *; now rewrite <- IH.
Qed.

End PyLinesFacts.
Import PyLinesFacts.

(** ** Branches of the probe *)

Lemma load_attempt_steps (h : host) (r : bool * string) :
  load_attempt h = Return r ->
  import_weasyprint h = Return tt
  /\ import_text_ffi h = Return tt
  /\ exists version, pango_version h = Return version.
Proof.
  unfold load_attempt, bind.
  destruct (import_weasyprint h) as [[]|]; [|discriminate].
  destruct (import_text_ffi h) as [[]|]; [|discriminate].
  destruct (pango_version h) as [v|]; [|discriminate].
  intros _. repeat split. now exists v.
Qed.

Lemma prefix_app_self (p s : string) : prefix p (p ++ s) = true.
Proof. apply prefix_spec. now exists s. Qed.

(** Every run of the probe takes one of six paths. *)
Lemma check_pango_available_paths (h : host) :
  (exists r, load_attempt h = Return r
     /\ check_pango_available h = Return (true, SUCCESS_MESSAGE))
  \/ (exists e, load_attempt h = Raise e
        /\ isinstance e OSError = true
        /\ names_native_library h (str e) = true
        /\ check_pango_available h
           = Return (false, remediation_box
                              (_get_platform_specific_instructions (system h))))
  \/ (exists e, load_attempt h = Raise e
        /\ isinstance e OSError = true
        /\ names_native_library h (str e) = false
        /\ check_pango_available h = Return (false, LOAD_FAILED_PREFIX ++ str e))
  \/ (exists e, load_attempt h = Raise e
        /\ isinstance e OSError = false
        /\ isinstance e ImportError = true
        /\ check_pango_available h = Return (false, WEASYPRINT_MISSING))
  \/ (exists e, load_attempt h = Raise e
        /\ isinstance e OSError = false
        /\ isinstance e ImportError = false
        /\ isinstance e Exception = true
        /\ check_pango_available h = Return (false, CHECK_FAILED_PREFIX ++ str e))
  \/ (exists e, load_attempt h = Raise e
        /\ isinstance e OSError = false
        /\ isinstance e ImportError = false
        /\ isinstance e Exception = false
        /\ check_pango_available h = Raise e).
Proof.
  destruct (load_attempt h) as [r|e] eqn:H.
  { left. exists r. split; [reflexivity|]. now apply (no_exception h r). }
  right.
  destruct (isinstance e OSError) eqn:HOS.
  { pose proof (except_OSError h e H HOS) as Hret.
    destruct (names_native_library h (str e)) eqn:Hn.
    - left. exists e. now rewrite HOS.
    - right; left. exists e. now rewrite HOS. }
  right; right.
  destruct (isinstance e ImportError) eqn:HIm.
  { left. exists e. rewrite HOS, HIm. repeat split.
    now apply (except_ImportError h e). }
  right.
  destruct (isinstance e Exception) eqn:HEx.
  - left. exists e. rewrite HOS, HIm, HEx. repeat split.
    now apply except_Exception.
  - right. exists e. rewrite HOS, HIm, HEx. repeat split.
    now apply not_caught.
Qed.

(** ** The probe *)

(** X1: when the load attempt raises an instance of [Exception] that is
    neither an [OSError] nor an [ImportError], the probe returns [false]
    with a fixed single-line prefix followed by the text of the
    exception, unchanged. *)
Theorem check_pango_available_unknown_failure (h : host) (e : exn) :
  load_attempt h = Raise e ->
  isinstance e Exception = true ->
  isinstance e OSError = false ->
  isinstance e ImportError = false ->
  check_pango_available h = Return (false, CHECK_FAILED_PREFIX ++ str e)
  /\ one_line CHECK_FAILED_PREFIX = true
  /\ Substring (str e) (CHECK_FAILED_PREFIX ++ str e)
  /\ line_breaks (CHECK_FAILED_PREFIX ++ str e) = line_breaks (str e).
Proof.
  intros H HEx HOS HIm.
  split; [now apply except_Exception|].
  split; [reflexivity|].
  split; [exists CHECK_FAILED_PREFIX, ""; now rewrite append_nil_r|].
  now rewrite line_breaks_app.
Qed.

Lemma check_pango_available_unknown_failure_witness :
  load_attempt Samples.no_symbol = Raise Samples.symbol_absent
  /\ isinstance Samples.symbol_absent Exception = true
  /\ isinstance Samples.symbol_absent OSError = false
  /\ isinstance Samples.symbol_absent ImportError = false
  /\ check_pango_available Samples.no_symbol
     = Return (false, CHECK_FAILED_PREFIX ++ str Samples.symbol_absent).
Proof.
  split; [reflexivity|]. split; [reflexivity|]. split; [reflexivity|].
  split; [reflexivity|].
  apply (check_pango_available_unknown_failure
           Samples.no_symbol Samples.symbol_absent); reflexivity.
Defined.

(** X2: the probe reports available only when nothing failed: if it
    returns [true], the message is the success message and both imports
    and the version query completed. *)
Theorem available_only_after_every_step (h : host) (message : string) :
  check_pango_available h = Return (true, message) ->
  message = SUCCESS_MESSAGE
  /\ import_weasyprint h = Return tt
  /\ import_text_ffi h = Return tt
  /\ exists version, pango_version h = Return version.
Proof.
  intros Hret.
  destruct (check_pango_available_paths h)
    as [[r [H Hc]] | [[e [_ [_ [_ Hc]]]] | [[e [_ [_ [_ Hc]]]]
       | [[e [_ [_ [_ Hc]]]] | [[e [_ [_ [_ [_ Hc]]]]] | [e [_ [_ [_ [_ Hc]]]]]]]]]];
    rewrite Hc in Hret; try discriminate.
  split; [congruence|]. exact (load_attempt_steps h r H).
Qed.

Lemma available_only_after_every_step_witness :
  check_pango_available Samples.healthy = Return (true, SUCCESS_MESSAGE)
  /\ import_weasyprint Samples.healthy = Return tt
  /\ import_text_ffi Samples.healthy = Return tt.
Proof.
  split; [reflexivity|].
  destruct (available_only_after_every_step Samples.healthy SUCCESS_MESSAGE)
    as [_ [H1 [H2 _]]]; [reflexivity|].
  split; [exact H1 | exact H2].
Defined.

(** X3: a failed import of [weasyprint] settles the result: two hosts on
    the same system, with the same [str.lower], whose first import raises
    the same exception get the same result, whatever the second import
    and the version query would do. *)
Theorem first_import_failure_settles (h h' : host) (e : exn) :
  system h = system h' ->
  lower h (str e) = lower h' (str e) ->
  import_weasyprint h = Raise e ->
  import_weasyprint h' = Raise e ->
  check_pango_available h = check_pango_available h'.
Proof.
  intros Hsys Hlow H1 H1'.
  unfold check_pango_available, load_attempt, names_native_library.
  rewrite H1, H1'. simpl. now rewrite Hsys, Hlow.
Qed.

Lemma first_import_failure_settles_witness :
  system Samples.no_weasyprint = system MoreSamples.no_pango
  /\ check_pango_available Samples.no_weasyprint
     = check_pango_available
         (mk_host "Darwin" ascii_lower (Raise Samples.weasyprint_absent)
                  (Raise MoreSamples.pango_missing) (Raise Samples.symbol_absent)).
Proof.
  split; [reflexivity|].
  apply (first_import_failure_settles _ _ Samples.weasyprint_absent);
    reflexivity.
Defined.

(** X4: the message tells which path was taken.  For every pair the
    probe returns: the message is the success message exactly when the
    attempt succeeded; it starts with the upper border exactly when an
    [OSError] naming one of the three libraries was raised; it starts
    with the load-failure prefix exactly when another [OSError] was
    raised; it is the install message exactly when an [ImportError] was
    raised; it starts with the check-failure prefix exactly when an
    exception of neither class was raised. *)
Theorem message_identifies_outcome (h : host) (b : bool) (message : string) :
  check_pango_available h = Return (b, message) ->
  (message = SUCCESS_MESSAGE <-> exists r, load_attempt h = Return r)
  /\ (prefix BOX_TOP message = true <->
      exists e, load_attempt h = Raise e /\ isinstance e OSError = true
                /\ names_native_library h (str e) = true)
  /\ (prefix LOAD_FAILED_PREFIX message = true <->
      exists e, load_attempt h = Raise e /\ isinstance e OSError = true
                /\ names_native_library h (str e) = false)
  /\ (message = WEASYPRINT_MISSING <->
      exists e, load_attempt h = Raise e /\ isinstance e ImportError = true)
  /\ (prefix CHECK_FAILED_PREFIX message = true <->
      exists e, load_attempt h = Raise e /\ isinstance e OSError = false
                /\ isinstance e ImportError = false).
Proof.
  intros Hret.
  assert (Hboth : forall A B : Prop, A -> B -> (A <-> B)) by tauto.
  assert (Hneither : forall A B : Prop, ~ A -> ~ B -> (A <-> B)) by tauto.
  destruct (check_pango_available_paths h)
    as [[r [H Hc]] | [[e [H [HOS [Hn Hc]]]] | [[e [H [HOS [Hn Hc]]]]
       | [[e [H [HOS [HIm Hc]]]] | [[e [H [HOS [HIm [HEx Hc]]]]]
       | [e [H [_ [_ [_ Hc]]]]]]]]]];
    rewrite Hc in Hret; try discriminate;
    match type of Hret with
    | Return (_, ?m) = _ =>
        assert (Hm : message = m) by congruence; subst message; clear Hret
    end.
  - (* success *)
    split; [apply Hboth; [reflexivity | now exists r]|].
    repeat split; try discriminate;
      try (intros [e [He _]]; congruence).
  - (* the box *)
    assert (HIm : isinstance e ImportError = false)
      by now apply OSError_not_ImportError.
    split; [apply Hneither;
            [apply remediation_box_not_success | intros [r Hr]; congruence]|].
    split; [apply Hboth; [apply prefix_app_self | now exists e]|].
    split; [apply Hneither; [discriminate|];
            intros [e' [He' [_ Hn']]]; rewrite H in He';
            injection He' as <-; congruence|].
    split; [apply Hneither;
            [apply (prefix_differs "╔"); reflexivity|];
            intros [e' [He' HIm']]; rewrite H in He';
            injection He' as <-; congruence|].
    apply Hneither; [discriminate|].
    intros [e' [He' [HOS' _]]]. rewrite H in He'.
    injection He' as <-. congruence.
  - (* another OSError *)
    assert (HIm : isinstance e ImportError = false)
      by now apply OSError_not_ImportError.
    split; [apply Hneither;
            [apply load_failed_not_success | intros [r Hr]; congruence]|].
    split; [apply Hneither; [discriminate|];
            intros [e' [He' [_ Hn']]]; rewrite H in He';
            injection He' as <-; congruence|].
    split; [apply Hboth; [apply prefix_app_self | now exists e]|].
    split; [apply Hneither;
            [apply (prefix_differs "⚠ P"); reflexivity|];
            intros [e' [He' HIm']]; rewrite H in He';
            injection He' as <-; congruence|].
    apply Hneither; [discriminate|].
    intros [e' [He' [HOS' _]]]. rewrite H in He'.
    injection He' as <-. congruence.
  - (* ImportError *)
    split; [apply Hneither;
            [apply weasyprint_missing_not_success | intros [r Hr]; congruence]|].
    split; [apply Hneither; [discriminate|];
            intros [e' [He' [HOS' _]]]; rewrite H in He';
            injection He' as <-; congruence|].
    split; [apply Hneither; [discriminate|];
            intros [e' [He' [HOS' _]]]; rewrite H in He';
            injection He' as <-; congruence|].
    split; [apply Hboth; [reflexivity | now exists e]|].
    apply Hneither; [discriminate|].
    intros [e' [He' [_ HIm']]]. rewrite H in He'.
    injection He' as <-. congruence.
  - (* any other Exception *)
    split; [apply Hneither;
            [apply check_failed_not_success | intros [r Hr]; congruence]|].
    split; [apply Hneither; [discriminate|];
            intros [e' [He' [HOS' _]]]; rewrite H in He';
            injection He' as <-; congruence|].
    split; [apply Hneither; [discriminate|];
            intros [e' [He' [HOS' _]]]; rewrite H in He';
            injection He' as <-; congruence|].
    split; [apply Hneither;
            [apply not_eq_sym, (prefix_differs "⚠ W"); reflexivity|];
            intros [e' [He' HIm']]; rewrite H in He';
            injection He' as <-; congruence|].
    apply Hboth; [apply prefix_app_self | now exists e].
Qed.

Lemma message_identifies_outcome_witness :
  check_pango_available Samples.no_cairo
    = Return (false, LOAD_FAILED_PREFIX ++ str Samples.cairo_denied)
  /\ exists e, load_attempt Samples.no_cairo = Raise e
               /\ isinstance e OSError = true
               /\ names_native_library Samples.no_cairo (str e) = false.
Proof.
  split; [reflexivity|].
  destruct (message_identifies_outcome Samples.no_cairo false
              (LOAD_FAILED_PREFIX ++ str Samples.cairo_denied))
    as [_ [_ [Hload _]]]; [reflexivity|].
  apply Hload. reflexivity.
Defined.

(** X5: on every system the remediation message is a closed box: split
    at its line feeds, the first piece is the upper border, the last is
    the lower border, and every piece is a border or runs from a
    vertical bar to a vertical bar; the message does not end in a line
    feed. *)
Theorem remediation_message_is_boxed (h : host) (e : exn) :
  load_attempt h = Raise e ->
  isinstance e OSError = true ->
  names_native_library h (str e) = true ->
  exists message,
    check_pango_available h = Return (false, message)
    /\ forallb box_line (split_lines message) = true
    /\ hd "" (split_lines message) ++ LF = BOX_TOP
    /\ last (split_lines message) "" = BOX_BOTTOM
    /\ endswith message LF = false.
Proof.
  intros H HOS Hn.
  exists (remediation_box (_get_platform_specific_instructions (system h))).
  split; [now rewrite (except_OSError h e H HOS), Hn|].
  unfold _get_platform_specific_instructions.
  destruct (String.eqb (system h) "Darwin"); [now vm_compute|].
  destruct (String.eqb (system h) "Linux"); [now vm_compute|].
  destruct (String.eqb (system h) "Windows"); now vm_compute.
Qed.

Lemma remediation_message_is_boxed_witness :
  load_attempt MoreSamples.no_gdk_freebsd = Raise MoreSamples.gdk_missing
  /\ isinstance MoreSamples.gdk_missing OSError = true
  /\ names_native_library MoreSamples.no_gdk_freebsd
       (str MoreSamples.gdk_missing) = true
  /\ exists message,
       check_pango_available MoreSamples.no_gdk_freebsd = Return (false, message)
       /\ forallb box_line (split_lines message) = true.
Proof.
  split; [reflexivity|]. split; [reflexivity|]. split; [reflexivity|].
  destruct (remediation_message_is_boxed
              MoreSamples.no_gdk_freebsd MoreSamples.gdk_missing)
    as [message [Hret [Hbox _]]]; try reflexivity.
  exists message. split; [exact Hret | exact Hbox].
Defined.

(** X6: the remediation message carries nothing of the error text: two
    hosts on the same system on which an [OSError] naming one of the
    three libraries is raised get the same result, whatever the two
    error texts are. *)
Theorem remediation_message_ignores_error_text (h h' : host) (e e' : exn) :
  system h = system h' ->
  load_attempt h = Raise e ->
  isinstance e OSError = true ->
  names_native_library h (str e) = true ->
  load_attempt h' = Raise e' ->
  isinstance e' OSError = true ->
  names_native_library h' (str e') = true ->
  check_pango_available h = check_pango_available h'.
Proof.
  intros Hsys H HOS Hn H' HOS' Hn'.
  rewrite (except_OSError h e H HOS), (except_OSError h' e' H' HOS').
  now rewrite Hn, Hn', Hsys.
Qed.

Lemma remediation_message_ignores_error_text_witness :
  system MoreSamples.no_pango = system (on_platform "Darwin" Samples.no_gobject)
  /\ str MoreSamples.pango_missing <> str Samples.gobject_missing
  /\ check_pango_available MoreSamples.no_pango
     = check_pango_available (on_platform "Darwin" Samples.no_gobject).
Proof.
  split; [reflexivity|]. split; [discriminate|].
  apply (remediation_message_ignores_error_text
           MoreSamples.no_pango (on_platform "Darwin" Samples.no_gobject)
           MoreSamples.pango_missing Samples.gobject_missing);
    reflexivity.
Defined.

(** X7: the operating system matters to the remediation message alone:
    unless the load attempt raises an [OSError] naming one of the three
    libraries, the probe gives the same result on every system. *)
Theorem platform_matters_to_box_only (h : host) (platform : string) :
  (forall e, load_attempt h = Raise e ->
             isinstance e OSError = true ->
             names_native_library h (str e) = false) ->
  check_pango_available (on_platform platform h) = check_pango_available h.
Proof.
  intros Hother.
  unfold check_pango_available.
  change (load_attempt (on_platform platform h)) with (load_attempt h).
  destruct (load_attempt h) as [r|e] eqn:H; [reflexivity|].
  destruct (isinstance e OSError) eqn:HOS; [|reflexivity].
  change (names_native_library (on_platform platform h) (str e))
    with (names_native_library h (str e)).
  now rewrite (Hother e eq_refl HOS).
Qed.

Lemma platform_matters_to_box_only_witness :
  check_pango_available (on_platform "Windows" Samples.no_cairo)
  = check_pango_available Samples.no_cairo.
Proof.
  apply (platform_matters_to_box_only Samples.no_cairo "Windows").
  intros e He _. injection He as <-. reflexivity.
Defined.

(** * The callers *)

(** X8: an exception the probe does not catch passes through both
    callers: [log_dependency_status] raises it and logs nothing, and the
    entry point ends on it having printed nothing: standard output holds
    only what the load attempt itself wrote. *)
Theorem uncaught_exception_passes_through
    (h : host) (e : exn) (log : Loguru.sink) (c : console) (stdout : string) :
  load_attempt h = Raise e ->
  isinstance e Exception = false ->
  log_dependency_status h log = (Raise e, log)
  /\ main h c stdout = (stdout ++ attempt_writes c, Uncaught e).
Proof.
  intros H HEx. pose proof (not_caught h e H HEx) as Hc.
  unfold log_dependency_status, main. now rewrite Hc.
Qed.

Lemma uncaught_exception_passes_through_witness :
  load_attempt Samples.interrupted = Raise Samples.interrupt
  /\ isinstance Samples.interrupt Exception = false
  /\ log_dependency_status Samples.interrupted [] = (Raise Samples.interrupt, [])
  /\ main Samples.interrupted Consoles.utf8 "" = ("", Uncaught Samples.interrupt).
Proof.
  split; [reflexivity|]. split; [reflexivity|].
  apply (uncaught_exception_passes_through
           Samples.interrupted Samples.interrupt [] Consoles.utf8 "");
    reflexivity.
Defined.

(** X9: [log_dependency_status] only appends to the log, zero, one or
    three records; a SUCCESS record carries the success message, a
    WARNING record never does, an INFO record is one of the two fixed
    texts, and no record of another level is written. *)
Theorem log_dependency_status_appends (h : host) (log : Loguru.sink) :
  exists added,
    snd (log_dependency_status h log) = (log ++ added)%list
    /\ (List.length added = 0 \/ List.length added = 1 \/ List.length added = 3)
    /\ forall l message, In (l, message) added ->
         (l = Loguru.SUCCESS /\ message = SUCCESS_MESSAGE)
         \/ (l = Loguru.WARNING /\ message <> SUCCESS_MESSAGE)
         \/ (l = Loguru.INFO /\ (message = INFO_HINT \/ message = INFO_README)).
Proof.
  unfold log_dependency_status.
  destruct (check_pango_available_cases h)
    as [[r [_ Hc]] | [[e [m [_ [_ [Hc [_ Hm]]]]]] | [e [_ [_ Hc]]]]];
    rewrite Hc; cbn [snd].
  - exists [(Loguru.SUCCESS, SUCCESS_MESSAGE)].
    split; [reflexivity|]. split; [now right; left|].
    intros l message [Hin|[]]. left. split; congruence.
  - exists [(Loguru.WARNING, m); (Loguru.INFO, INFO_HINT);
            (Loguru.INFO, INFO_README)].
    split.
    { unfold Loguru.info, Loguru.warning, Loguru.emit.
      now rewrite <- !app_assoc. }
    split; [now right; right|].
    intros l message [Hin|[Hin|[Hin|[]]]].
    + right; left. split; congruence.
    + right; right. split; [congruence|]. left. congruence.
    + right; right. split; [congruence|]. right. congruence.
  - exists []. split; [now rewrite app_nil_r|].
    split; [now left|]. intros l message [].
Qed.
